(** * core/exceptions.py: the uniform error envelope

    [custom_exception_handler] is registered as the REST framework's
    EXCEPTION_HANDLER (config/settings/base.py).  It asks the framework's
    default formatter for a response and, when there is one, replaces the
    response's body by a two-key mapping.

    The response is a mutable object: the handler assigns to [response.data]
    and returns the very object the formatter gave it.  Objects therefore live
    in a store, and the handler is a computation over that store which either
    returns or raises. *)

From Stdlib Require Import Ascii.
From stdpp Require Import gmap strings pretty.

Local Open Scope string_scope.
Local Set Warnings "-register-all".

(** ** Python values *)

(** The values a response body is made of.  [ErrorDetail] is a subclass of
    [str] whose [str()] is its text, so it is a [VStr] here; mappings are
    keyed by strings, as every body the framework builds is. *)
Inductive value : Type :=
  | VNone
  | VBool (b : bool)
  | VInt (z : Z)
  | VStr (s : string)
  | VList (xs : list value)
  | VDict (d : gmap string value).

(** [type(v).__name__] *)
Definition type_name (v : value) : string :=
  match v with
  | VNone => "NoneType"
  | VBool _ => "bool"
  | VInt _ => "int"
  | VStr _ => "str"
  | VList _ => "list"
  | VDict _ => "dict"
  end.

(** [isinstance(v, str)] *)
Definition isinstance_str (v : value) : bool :=
  match v with
  | VStr _ => true
  | _ => false
  end.

(** ** Outcomes and the store *)

Inductive exn : Type :=
  | AttributeError (type_of attr : string).

(** A call returns, raises, or (in the model only) follows a reference to an
    object that is not in the store, which no Python program can do. *)
Inductive outcome (A : Type) : Type :=
  | Return (a : A)
  | Raise (e : exn)
  | Dangling.
Arguments Return {A} a.
Arguments Raise {A} e.
Arguments Dangling {A}.

(** [rest_framework.response.Response], as far as the handler sees it. *)
Record Response : Type := mkResponse {
  data : value;
  status_code : Z;
  headers : gmap string string
}.

(** [response.data = v] on the record *)
Definition with_data (r : Response) (v : value) : Response :=
  {| data := v; status_code := status_code r; headers := headers r |}.

Abbreviation loc := positive (only parsing).
Abbreviation heap := (gmap positive Response) (only parsing).

Definition M (A : Type) : Type := heap -> outcome A * heap.

Definition ret {A} (a : A) : M A := fun h => (Return a, h).

Definition bind {A B} (k : A -> M B) (m : M A) : M B :=
  fun h =>
    match m h with
    | (Return a, h') => k a h'
    | (Raise e, h') => (Raise e, h')
    | (Dangling, h') => (Dangling, h')
    end.

#[global] Instance M_ret : MRet M := @ret.
#[global] Instance M_bind : MBind M := @bind.

Definition lift {A} (o : outcome A) : M A := fun h => (o, h).

(** reading the attribute [response.data] *)
Definition get_data (l : loc) : M value :=
  fun h =>
    match h !! l with
    | Some r => (Return (data r), h)
    | None => (Dangling, h)
    end.

(** the assignment [response.data = v] *)
Definition set_data (l : loc) (v : value) : M unit :=
  fun h =>
    match h !! l with
    | Some r => (Return tt, <[l := with_data r v]> h)
    | None => (Dangling, h)
    end.

(** ** The builtins the handler calls *)

(** [v.get(key, default)]: only a mapping has the attribute [get]. *)
Definition py_get (v : value) (key : string) (default : value) : outcome value :=
  match v with
  | VDict d =>
      match d !! key with
      | Some x => Return x
      | None => Return default
      end
  | _ => Raise (AttributeError (type_name v) "get")
  end.

Section Handler.

(** The fault, the view context, and what the handler is given from outside
    the repository: the fault's [__str__] (taken to return, as that of every
    fault the framework formats does), the framework's default formatter
    [rest_framework.views.exception_handler], which may allocate a response
    in the store, and the interpreter's [repr] of a list or of a mapping. *)
Variables Exc Context : Type.
Variable str_exc : Exc -> string.
Variable exception_handler : Exc -> Context -> M (option loc).
Variable py_repr : value -> string.

(** [str(v)] *)
Definition py_str (v : value) : string :=
  match v with
  | VNone => "None"
  | VBool true => "True"
  | VBool false => "False"
  | VInt z => pretty z
  | VStr s => s
  | VList _ | VDict _ => py_repr v
  end.

(** exceptions.py, lines 5-15 *)
Definition custom_exception_handler (exc : Exc) (context : Context) : M (option loc) :=
  response ← exception_handler exc context;
  match response with
  | Some l =>
      d0 ← get_data l;
      error_message ← lift (py_get d0 "detail" (VStr (str_exc exc)));
      d1 ← get_data l;
      detail ← (if negb (isinstance_str d1) then get_data l else mret VNone);
      set_data l
        (VDict {[ "error" := VStr (py_str error_message);
                  "detail" := detail ]});;
      mret (Some l)
  | None => mret None
  end.

End Handler.

Arguments custom_exception_handler {Exc Context}
  str_exc exception_handler py_repr exc context.

(** ** Concrete faults

    A fault that carries its string form and the response the formatter
    builds for it, if any; the formatter allocates that response as a new
    object.  These instantiate the development on the scenarios of the API:
    validation, authentication and unexpected runtime failures. *)

Record fault : Type := mkFault {
  message : string;
  formatted : option Response
}.

Definition format_fault (exc : fault) (_ : unit) : M (option loc) :=
  fun h =>
    match formatted exc with
    | Some r => let l := fresh (dom h) in (Return (Some l), <[l := r]> h)
    | None => (Return None, h)
    end.

(** A stand-in for the [repr] of a list or of a mapping; it is not Python's.
    No fault below has a list or a mapping under the key [detail], so no
    instance applies it: the [repr] of a container is never taken. *)
Definition opaque_repr (v : value) : string := "<" +:+ type_name v +:+ ">".

Definition handle : fault -> unit -> M (option loc) :=
  custom_exception_handler message format_fault opaque_repr.

Definition required : string := "This field is required.".
Definition no_credentials : string := "Authentication credentials were not provided.".

(** [{"detail": "This field is required.", "field": "name"}], 400 *)
Definition validation_body : gmap string value :=
  {[ "detail" := VStr required; "field" := VStr "name" ]}.
Definition validation_response : Response :=
  {| data := VDict validation_body; status_code := 400; headers := ∅ |}.
Definition validation_fault : fault :=
  {| message := required; formatted := Some validation_response |}.

(** another fault that the formatter answers in the same way *)
Definition invalid_input_fault : fault :=
  {| message := "Invalid input."; formatted := Some validation_response |}.

(** [NotAuthenticated()]: [{"detail": "Authentication ..."}], 401, with a
    [WWW-Authenticate] header *)
Definition unauthenticated_response : Response :=
  {| data := VDict {[ "detail" := VStr no_credentials ]};
     status_code := 401;
     headers := {[ "WWW-Authenticate" := "Bearer realm=api" ]} |}.
Definition unauthenticated_fault : fault :=
  {| message := no_credentials; formatted := Some unauthenticated_response |}.
Definition unauthenticated_normalized : Response :=
  with_data unauthenticated_response
    (VDict {[ "error" := VStr no_credentials;
              "detail" := data unauthenticated_response ]}).


(** [ValidationError("This field is required.")]: the framework makes the
    one-element list [["This field is required."]] of the message, 400 *)
Definition list_response : Response :=
  {| data := VList [VStr required]; status_code := 400; headers := ∅ |}.
Definition list_fault : fault :=
  {| message := "[ErrorDetail(string='This field is required.', code='invalid')]";
     formatted := Some list_response |}.

(** a serializer's errors by field: [{"name": ["This field is required."]}], 400 *)
Definition field_errors_body : gmap string value :=
  {[ "name" := VList [VStr required] ]}.
Definition field_errors_response : Response :=
  {| data := VDict field_errors_body; status_code := 400; headers := ∅ |}.
Definition field_errors_fault : fault :=
  {| message := "{'name': [ErrorDetail(string='This field is required.', code='required')]}";
     formatted := Some field_errors_response |}.

(** a body whose [detail] entry is null: [{"detail": None}], 400 *)
Definition null_detail_body : gmap string value := {[ "detail" := VNone ]}.
Definition null_detail_response : Response :=
  {| data := VDict null_detail_body; status_code := 400; headers := ∅ |}.
Definition null_detail_fault : fault :=
  {| message := "Bad request."; formatted := Some null_detail_response |}.

(** a store that already holds the response of some other request *)
Definition busy_store (r : Response) : gmap positive Response := {[ 3%positive := r ]}.

(** [ZeroDivisionError]: nothing the framework can format *)
Definition runtime_fault : fault :=
  {| message := "division by zero"; formatted := None |}.

(** a body whose [detail] entry is false: [{"detail": False}], 400 *)
Definition false_detail_body : gmap string value := {[ "detail" := VBool false ]}.
Definition false_detail_response : Response :=
  {| data := VDict false_detail_body; status_code := 400; headers := ∅ |}.
Definition false_detail_fault : fault :=
  {| message := "Bad request."; formatted := Some false_detail_response |}.

(** * config/settings: the settings modules

    [base.py] and [local.py] are scripts: importing one runs its assignments
    in order, and a call into the environment library may raise on the way.
    A module is therefore a computation over the process environment
    [os.environ] and the module's globals. *)

(** The values the settings are made of.  [SObject] stands for a module, a
    class or an instance that is only bound to a name ([environ], [Path],
    [env], [timedelta]). *)
Inductive setting : Type :=
  | SBool (b : bool)
  | SInt (z : Z)
  | SStr (s : string)
  | SList (xs : list setting)
  | STuple (xs : list setting)
  | SDict (d : gmap string setting)
  | SPath (parts : list string)
  | STimedelta (days seconds : Z)
  | SObject (name : string).

(** a list literal of strings *)
Definition strs (l : list string) : setting := SList (SStr <$> l).

(** [p.parent] and [p / name] on the components of an absolute path; the
    parent of the root is the root. *)
Definition parent (p : list string) : list string := removelast p.
Definition joinpath (p : list string) (name : string) : list string := p ++ [name].

(** [timedelta(days=d, minutes=m)], normalised to days and seconds *)
Definition timedelta (days minutes : Z) : setting :=
  STimedelta (days + minutes * 60 / 86400) ((minutes * 60) mod 86400).

(** base.py, lines 13-39 *)
Definition DJANGO_APPS : list string :=
  [ "django.contrib.admin";
    "django.contrib.auth";
    "django.contrib.contenttypes";
    "django.contrib.sessions";
    "django.contrib.messages";
    "django.contrib.staticfiles" ].

Definition THIRD_PARTY_APPS : list string :=
  [ "rest_framework";
    "rest_framework_simplejwt";
    "corsheaders";
    "django_q" ].

Definition LOCAL_APPS : list string :=
  [ "core";
    "accounts";
    "rooms";
    "reservations";
    "waitlist";
    "menu";
    "payments" ].

Definition INSTALLED_APPS : list string :=
  DJANGO_APPS ++ THIRD_PARTY_APPS ++ LOCAL_APPS.

(** base.py, lines 41-51 *)
Definition MIDDLEWARE : list string :=
  [ "django.middleware.security.SecurityMiddleware";
    "whitenoise.middleware.WhiteNoiseMiddleware";
    "corsheaders.middleware.CorsMiddleware";
    "django.middleware.common.CommonMiddleware";
    "django.contrib.sessions.middleware.SessionMiddleware";
    "django.middleware.csrf.CsrfViewMiddleware";
    "django.contrib.auth.middleware.AuthenticationMiddleware";
    "django.contrib.messages.middleware.MessageMiddleware";
    "django.middleware.clickjacking.XFrameOptionsMiddleware" ].

(** base.py, lines 55-69 *)
Definition TEMPLATES : setting :=
  SList
    [ SDict
        {[ "BACKEND" := SStr "django.template.backends.django.DjangoTemplates";
           "DIRS" := SList [];
           "APP_DIRS" := SBool true;
           "OPTIONS" :=
             SDict
               {[ "context_processors" :=
                    strs [ "django.template.context_processors.debug";
                           "django.template.context_processors.request";
                           "django.contrib.auth.context_processors.auth";
                           "django.contrib.messages.context_processors.messages" ] ]} ]} ].

(** base.py, lines 77-82 *)
Definition AUTH_PASSWORD_VALIDATORS : setting :=
  SList
    [ SDict {[ "NAME" := SStr
        "django.contrib.auth.password_validation.UserAttributeSimilarityValidator" ]};
      SDict {[ "NAME" := SStr
        "django.contrib.auth.password_validation.MinimumLengthValidator" ]};
      SDict {[ "NAME" := SStr
        "django.contrib.auth.password_validation.CommonPasswordValidator" ]};
      SDict {[ "NAME" := SStr
        "django.contrib.auth.password_validation.NumericPasswordValidator" ]} ].

(** base.py, lines 96-107 *)
Definition REST_FRAMEWORK : setting :=
  SDict
    {[ "DEFAULT_AUTHENTICATION_CLASSES" :=
         STuple [SStr "rest_framework_simplejwt.authentication.JWTAuthentication"];
       "DEFAULT_PERMISSION_CLASSES" :=
         STuple [SStr "rest_framework.permissions.IsAuthenticated"];
       "DEFAULT_RENDERER_CLASSES" :=
         STuple [SStr "rest_framework.renderers.JSONRenderer"];
       "EXCEPTION_HANDLER" := SStr "core.exceptions.custom_exception_handler" ]}.

(** base.py, lines 111-119 *)
Definition SIMPLE_JWT : setting :=
  SDict
    {[ "ACCESS_TOKEN_LIFETIME" := timedelta 0 15;
       "REFRESH_TOKEN_LIFETIME" := timedelta 7 0;
       "ROTATE_REFRESH_TOKENS" := SBool true;
       "BLACKLIST_AFTER_ROTATION" := SBool true;
       "AUTH_COOKIE" := SStr "refresh_token";
       "AUTH_COOKIE_HTTP_ONLY" := SBool true;
       "AUTH_COOKIE_SAMESITE" := SStr "Lax" ]}.

(** base.py, lines 126-134 *)
Definition Q_CLUSTER : setting :=
  SDict
    {[ "name" := SStr "family-karaoke";
       "workers" := SInt 2;
       "timeout" := SInt 90;
       "retry" := SInt 120;
       "queue_limit" := SInt 50;
       "bulk" := SInt 10;
       "orm" := SStr "default" ]}.

(** the process environment and the globals of the module being run *)
Record world : Type := mkWorld {
  os_environ : gmap string string;
  globals : gmap string setting
}.

(** [from m import *] takes the names that do not start with an underscore. *)
Definition public (name : string) : bool :=
  match name with
  | String "_"%char _ => false
  | _ => true
  end.

Section Settings.

(** What the modules are given from outside the repository: the exceptions
    of the environment library, its readers [env(name)],
    [env.list(name, default=...)] and [env.db(name)] over [os.environ], its
    [Env.read_env(path)], which updates [os.environ] from a file, and the
    resolved path of [base.py]. *)
Variable E : Type.
Variable env_str : gmap string string -> string -> E + setting.
Variable env_list : gmap string string -> string -> setting -> E + setting.
Variable env_db : gmap string string -> string -> E + setting.
Variable read_env : list string -> gmap string string -> E + gmap string string.
Variable module_file : list string.

Definition Exec (A : Type) : Type := world -> (E + A) * world.

#[global] Instance Exec_ret : MRet Exec := fun A a w => (inr a, w).
#[global] Instance Exec_bind : MBind Exec :=
  fun A B k m w =>
    match m w with
    | (inr a, w') => k a w'
    | (inl e, w') => (inl e, w')
    end.

(** the assignment [name = v] at module level, and [import] of a name *)
Definition assign (name : string) (v : setting) : Exec unit :=
  fun w => (inr tt, {| os_environ := os_environ w; globals := <[name := v]> (globals w) |}).

(** a call of one of the readers *)
Definition read (f : gmap string string -> E + setting) : Exec setting :=
  fun w => (f (os_environ w), w).

(** [Env.read_env(path)] *)
Definition call_read_env (path : list string) : Exec unit :=
  fun w =>
    match read_env path (os_environ w) with
    | inr env' => (inr tt, {| os_environ := env'; globals := globals w |})
    | inl e => (inl e, w)
    end.

(** [from .m import *]: the module runs with globals of its own; its public
    names are then bound in the importer, over names it already has. *)
Definition import_star (m : Exec unit) : Exec unit :=
  fun w =>
    match m {| os_environ := os_environ w; globals := ∅ |} with
    | (inr _, w') =>
        (inr tt,
         {| os_environ := os_environ w';
            globals := filter (fun kv => Is_true (public kv.1)) (globals w') ∪ globals w |})
    | (inl e, w') =>
        (inl e, {| os_environ := os_environ w'; globals := globals w |})
    end.

(** base.py, line 4: [Path(__file__).resolve().parent.parent.parent] *)
Definition BASE_DIR : list string := parent (parent (parent module_file)).

(** config/settings/base.py *)
Definition base : Exec unit :=
  assign "environ" (SObject "environ");;
  assign "Path" (SObject "pathlib.Path");;
  assign "BASE_DIR" (SPath BASE_DIR);;
  assign "env" (SObject "environ.Env(DEBUG=(bool, False))");;
  secret_key ← read (fun env => env_str env "DJANGO_SECRET_KEY");
  assign "SECRET_KEY" secret_key;;
  allowed_hosts ← read (fun env => env_list env "DJANGO_ALLOWED_HOSTS" (SList []));
  assign "ALLOWED_HOSTS" allowed_hosts;;
  assign "DJANGO_APPS" (strs DJANGO_APPS);;
  assign "THIRD_PARTY_APPS" (strs THIRD_PARTY_APPS);;
  assign "LOCAL_APPS" (strs LOCAL_APPS);;
  assign "INSTALLED_APPS" (strs INSTALLED_APPS);;
  assign "MIDDLEWARE" (strs MIDDLEWARE);;
  assign "ROOT_URLCONF" (SStr "config.urls");;
  assign "TEMPLATES" TEMPLATES;;
  assign "WSGI_APPLICATION" (SStr "config.wsgi.application");;
  database ← read (fun env => env_db env "DATABASE_URL");
  assign "DATABASES" (SDict {[ "default" := database ]});;
  assign "AUTH_PASSWORD_VALIDATORS" AUTH_PASSWORD_VALIDATORS;;
  assign "LANGUAGE_CODE" (SStr "en-us");;
  assign "TIME_ZONE" (SStr "America/Denver");;
  assign "USE_I18N" (SBool true);;
  assign "USE_TZ" (SBool true);;
  assign "STATIC_URL" (SStr "/static/");;
  assign "STATIC_ROOT" (SPath (joinpath BASE_DIR "staticfiles"));;
  assign "STATICFILES_STORAGE"
    (SStr "whitenoise.storage.CompressedManifestStaticFilesStorage");;
  assign "DEFAULT_AUTO_FIELD" (SStr "django.db.models.BigAutoField");;
  assign "REST_FRAMEWORK" REST_FRAMEWORK;;
  assign "timedelta" (SObject "datetime.timedelta");;
  assign "SIMPLE_JWT" SIMPLE_JWT;;
  stripe_secret_key ← read (fun env => env_str env "STRIPE_SECRET_KEY");
  assign "STRIPE_SECRET_KEY" stripe_secret_key;;
  stripe_webhook_secret ← read (fun env => env_str env "STRIPE_WEBHOOK_SECRET");
  assign "STRIPE_WEBHOOK_SECRET" stripe_webhook_secret;;
  assign "Q_CLUSTER" Q_CLUSTER.

(** config/settings/local.py *)
Definition local : Exec unit :=
  import_star base;;
  assign "DEBUG" (SBool true);;
  call_read_env (joinpath BASE_DIR ".env");;
  assign "ALLOWED_HOSTS" (strs ["localhost"; "127.0.0.1"]);;
  assign "CORS_ALLOWED_ORIGINS" (strs ["http://localhost:5173"]);;
  assign "CORS_ALLOW_CREDENTIALS" (SBool true).

End Settings.

Arguments base {E} env_str env_list env_db module_file.
Arguments local {E} env_str env_list env_db read_env module_file.

(** ** A sample environment

    Readers that take a variable as it is and raise its name when it is not
    set, and a [read_env] that adds the variables of a file that the process
    does not have.  They instantiate the facts about the settings. *)

Definition getenv (env : gmap string string) (name : string) : string + setting :=
  match env !! name with
  | Some v => inr (SStr v)
  | None => inl name
  end.

Definition getenv_list (env : gmap string string) (name : string) (default : setting)
  : string + setting :=
  match env !! name with
  | Some v => inr (strs [v])
  | None => inr default
  end.

Definition dotenv (file : gmap string string)
    (path : list string) (env : gmap string string) : string + gmap string string :=
  inr (env ∪ file).

Definition deployed_environ : gmap string string :=
  {[ "DJANGO_SECRET_KEY" := "not-so-secret";
     "DATABASE_URL" := "postgres://karaoke@db/karaoke";
     "STRIPE_SECRET_KEY" := "sk_test_1";
     "STRIPE_WEBHOOK_SECRET" := "whsec_1";
     "DJANGO_ALLOWED_HOSTS" := "api.example.com";
     "DEBUG" := "True" ]}.

(** the variables in a [.env] file only *)
Definition dotenv_file : gmap string string :=
  {[ "DJANGO_SECRET_KEY" := "from-the-file";
     "DATABASE_URL" := "sqlite:///db.sqlite3";
     "STRIPE_SECRET_KEY" := "sk_test_2";
     "STRIPE_WEBHOOK_SECRET" := "whsec_2" ]}.

Definition base_py : list string := ["srv"; "app"; "config"; "settings"; "base.py"].

Definition fresh_module (env : gmap string string) : world :=
  {| os_environ := env; globals := ∅ |}.

(** ** The handler, case by case *)

Ltac run := unfold mbind, mret, M_bind, M_ret, bind, ret, lift, get_data, set_data.

Section HandlerFacts.

Context {Exc Context : Type}.
Variable str_exc : Exc -> string.
Variable exception_handler : Exc -> Context -> M (option loc).
Variable py_repr : value -> string.

Local Abbreviation handler :=
  (custom_exception_handler str_exc exception_handler py_repr).

(** The formatter has no response: the handler hands back its [None] and
    leaves the store as the formatter left it. *)
Lemma handler_no_response exc ctx h h1 :
  exception_handler exc ctx h = (Return None, h1) ->
  handler exc ctx h = (Return None, h1).
Proof.
  intros Hf. unfold handler, custom_exception_handler. run. rewrite Hf. reflexivity.
Qed.

(** An exception of the formatter itself passes through the handler. *)
Lemma handler_formatter_raises exc ctx h h1 e :
  exception_handler exc ctx h = (Raise e, h1) ->
  handler exc ctx h = (Raise e, h1).
Proof.
  intros Hf. unfold handler, custom_exception_handler. run. rewrite Hf. reflexivity.
Qed.

(** The formatter has a response [r]: everything hangs on the call of
    [r.data.get]. *)
Lemma handler_response exc ctx h h1 l r :
  exception_handler exc ctx h = (Return (Some l), h1) ->
  h1 !! l = Some r ->
  handler exc ctx h =
    match py_get (data r) "detail" (VStr (str_exc exc)) with
    | Return m =>
        (Return (Some l),
         <[l := with_data r
                  (VDict {[ "error" := VStr (py_str py_repr m);
                            "detail" := if negb (isinstance_str (data r))
                                        then data r else VNone ]})]> h1)
    | Raise e => (Raise e, h1)
    | Dangling => (Dangling, h1)
    end.
Proof.
  intros Hf Hl. unfold handler, custom_exception_handler. run.
  rewrite Hf, Hl.
  destruct (data r) as [| | | | |d] eqn:Hd; simpl; try reflexivity.
  destruct (d !! "detail"); simpl; rewrite Hl, Hd; simpl; rewrite !Hl, Hd; reflexivity.
Qed.

(** [get] succeeds exactly on a mapping, and then the branch of the
    conditional expression that yields [None] is not taken. *)
Lemma handler_mapping exc ctx h h1 l r d :
  exception_handler exc ctx h = (Return (Some l), h1) ->
  h1 !! l = Some r ->
  data r = VDict d ->
  handler exc ctx h =
    (Return (Some l),
     <[l := with_data r
              (VDict {[ "error" :=
                          VStr (py_str py_repr
                                  (default (VStr (str_exc exc)) (d !! "detail")));
                        "detail" := VDict d ]})]> h1).
Proof.
  intros Hf Hl Hd. rewrite (handler_response _ _ _ _ _ _ Hf Hl), Hd. simpl.
  destruct (d !! "detail"); reflexivity.
Qed.

(** C5. The handler does raise: when the formatter's body is anything but
    a mapping (a string, a list, a number, [None]) the attribute [get] is
    missing, and the handler ends in [AttributeError] with the response left
    as the formatter built it. *)
Theorem non_mapping_body_raises exc ctx h h1 l r :
  exception_handler exc ctx h = (Return (Some l), h1) ->
  h1 !! l = Some r ->
  (forall d, data r <> VDict d) ->
  custom_exception_handler str_exc exception_handler py_repr exc ctx h =
    (Raise (AttributeError (type_name (data r)) "get"), h1).
Proof.
  intros Hf Hl Hd. rewrite (handler_response _ _ _ _ _ _ Hf Hl).
  destruct (data r) as [| | | | |d]; try reflexivity.
  destruct (Hd d); reflexivity.
Qed.

(** ** The envelope of a mapping *)

(** C1. When the formatter's body is a mapping whose [detail] entry is the
    string [msg], whatever else the mapping holds, the handler returns the
    response with the body [{"error": msg, "detail": <the whole mapping>}]
    and with the status code it had. *)
Theorem detail_string_envelope exc ctx h h1 l r d msg :
  exception_handler exc ctx h = (Return (Some l), h1) ->
  h1 !! l = Some r ->
  data r = VDict d ->
  d !! "detail" = Some (VStr msg) ->
  exists r',
    custom_exception_handler str_exc exception_handler py_repr exc ctx h =
      (Return (Some l), <[l := r']> h1) /\
    data r' = VDict {[ "error" := VStr msg; "detail" := VDict d ]} /\
    status_code r' = status_code r.
Proof.
  intros Hf Hl Hd Hm. eexists. split.
  - apply (handler_mapping _ _ _ _ _ _ _ Hf Hl Hd).
  - rewrite Hm. split; reflexivity.
Qed.

(** C3. When the formatter's body is a mapping without a [detail] key, the
    handler returns the response with the body
    [{"error": str(exc), "detail": <the whole mapping>}] and with the status
    code it had. *)
Theorem missing_detail_envelope exc ctx h h1 l r d :
  exception_handler exc ctx h = (Return (Some l), h1) ->
  h1 !! l = Some r ->
  data r = VDict d ->
  d !! "detail" = None ->
  exists r',
    custom_exception_handler str_exc exception_handler py_repr exc ctx h =
      (Return (Some l), <[l := r']> h1) /\
    data r' = VDict {[ "error" := VStr (str_exc exc); "detail" := VDict d ]} /\
    status_code r' = status_code r.
Proof.
  intros Hf Hl Hd Hm. eexists. split.
  - apply (handler_mapping _ _ _ _ _ _ _ Hf Hl Hd).
  - rewrite Hm. split; reflexivity.
Qed.

(** C9. When the formatter's body is a mapping whose [detail] entry is
    present with the value [None], the [error] field is [str(None)], the
    string ["None"], and not the string form of the fault: the default of
    [get] is used for an absent key only. *)
Theorem null_detail_envelope exc ctx h h1 l r d :
  exception_handler exc ctx h = (Return (Some l), h1) ->
  h1 !! l = Some r ->
  data r = VDict d ->
  d !! "detail" = Some VNone ->
  exists r',
    custom_exception_handler str_exc exception_handler py_repr exc ctx h =
      (Return (Some l), <[l := r']> h1) /\
    data r' = VDict {[ "error" := VStr "None"; "detail" := VDict d ]} /\
    status_code r' = status_code r.
Proof.
  intros Hf Hl Hd Hm. eexists. split.
  - apply (handler_mapping _ _ _ _ _ _ _ Hf Hl Hd).
  - rewrite Hm. split; reflexivity.
Qed.

(** C10. Two faults for which the formatter gives the same response, whose
    body is a mapping with a [detail] key, are handled alike: the same
    outcome and the same store.  The fault counts through [str(exc)] alone,
    so two faults with one string form are handled alike on any body. *)
Theorem fault_irrelevant_with_detail exc1 exc2 ctx h h1 l r :
  exception_handler exc1 ctx h = (Return (Some l), h1) ->
  exception_handler exc2 ctx h = (Return (Some l), h1) ->
  h1 !! l = Some r ->
  (exists d, data r = VDict d /\ is_Some (d !! "detail")) \/
    str_exc exc1 = str_exc exc2 ->
  custom_exception_handler str_exc exception_handler py_repr exc1 ctx h =
  custom_exception_handler str_exc exception_handler py_repr exc2 ctx h.
Proof.
  intros Hf1 Hf2 Hl [(d & Hd & [v Hv]) | Hs].
  - rewrite (handler_mapping _ _ _ _ _ _ _ Hf1 Hl Hd).
    rewrite (handler_mapping _ _ _ _ _ _ _ Hf2 Hl Hd).
    rewrite Hv. reflexivity.
  - rewrite (handler_response _ _ _ _ _ _ Hf1 Hl).
    rewrite (handler_response _ _ _ _ _ _ Hf2 Hl).
    rewrite Hs. reflexivity.
Qed.

(** ** What the handler leaves alone *)

(** C7. Whenever the handler returns a response, it is the object the
    formatter returned, with the status code and the headers the formatter
    gave it; no other object of the store is touched. *)
Theorem status_and_headers_preserved exc ctx h h' l :
  custom_exception_handler str_exc exception_handler py_repr exc ctx h =
    (Return (Some l), h') ->
  exists h1 r r',
    exception_handler exc ctx h = (Return (Some l), h1) /\
    h1 !! l = Some r /\
    h' !! l = Some r' /\
    status_code r' = status_code r /\
    headers r' = headers r /\
    forall l', l' <> l -> h' !! l' = h1 !! l'.
Proof.
  intros Hh.
  destruct (exception_handler exc ctx h) as [[[l0|]|e|] h1] eqn:Hf.
  - destruct (h1 !! l0) as [r|] eqn:Hl.
    + rewrite (handler_response _ _ _ _ _ _ Hf Hl) in Hh.
      destruct (py_get _ _ _); inversion Hh; subst.
      exists h1, r. eexists.
      split; [reflexivity|]. split; [assumption|].
      split; [apply lookup_insert_eq|].
      split; [reflexivity|]. split; [reflexivity|].
      intros l' Hne. apply lookup_insert_ne. congruence.
    + revert Hh. unfold custom_exception_handler. run. rewrite Hf, Hl. discriminate.
  - rewrite (handler_no_response _ _ _ _ Hf) in Hh. discriminate.
  - rewrite (handler_formatter_raises _ _ _ _ _ Hf) in Hh. discriminate.
  - revert Hh. unfold custom_exception_handler. run. rewrite Hf. discriminate.
Qed.

End HandlerFacts.

(** ** Independence of invocations *)

(** C8. The handler is a function of the fault and of what the formatter
    returns.  Two invocations on the same fault and context, in any two
    stores and behind any two formatters, whose formatter results agree (the
    same outcome, and the same response object when there is one) have the
    same outcome and leave the same response object; and neither writes any
    other object: outside the response, each store is as the formatter left
    it. *)
Theorem handler_stateless {Exc Context : Type}
    (str_exc : Exc -> string) (py_repr : value -> string)
    (f1 f2 : Exc -> Context -> M (option loc))
    (exc : Exc) (ctx : Context) (h1 h2 hf1 hf2 : heap) (o : outcome (option loc)) :
  f1 exc ctx h1 = (o, hf1) ->
  f2 exc ctx h2 = (o, hf2) ->
  (forall l, o = Return (Some l) -> hf1 !! l = hf2 !! l) ->
  exists o' h1' h2',
    custom_exception_handler str_exc f1 py_repr exc ctx h1 = (o', h1') /\
    custom_exception_handler str_exc f2 py_repr exc ctx h2 = (o', h2') /\
    (forall l, o = Return (Some l) -> h1' !! l = h2' !! l) /\
    (forall l', o <> Return (Some l') ->
       h1' !! l' = hf1 !! l' /\ h2' !! l' = hf2 !! l').
Proof.
  intros Hf1 Hf2 Hsame. destruct o as [[l|]|e|].
  - pose proof (Hsame l eq_refl) as Hl.
    destruct (hf1 !! l) as [r|] eqn:Hl1; symmetry in Hl.
    + rewrite (handler_response _ _ _ _ _ _ _ _ _ Hf1 Hl1).
      rewrite (handler_response _ _ _ _ _ _ _ _ _ Hf2 Hl).
      destruct (py_get _ _ _); do 3 eexists;
        (split; [reflexivity|]); (split; [reflexivity|]); split.
      * intros l0 [= <-]. rewrite !lookup_insert_eq. reflexivity.
      * intros l' Hne. rewrite !lookup_insert_ne by congruence. split; reflexivity.
      * intros l0 [= <-]. congruence.
      * intros l' _. split; reflexivity.
      * intros l0 [= <-]. congruence.
      * intros l' _. split; reflexivity.
    + exists Dangling, hf1, hf2.
      unfold custom_exception_handler. run. rewrite Hf1, Hf2, Hl1, Hl.
      repeat split; intros l0 [= <-]; congruence.
  - rewrite (handler_no_response _ _ _ _ _ _ _ Hf1).
    rewrite (handler_no_response _ _ _ _ _ _ _ Hf2).
    do 3 eexists. repeat split; discriminate.
  - rewrite (handler_formatter_raises _ _ _ _ _ _ _ _ Hf1).
    rewrite (handler_formatter_raises _ _ _ _ _ _ _ _ Hf2).
    do 3 eexists. repeat split; discriminate.
  - exists Dangling, hf1, hf2.
    unfold custom_exception_handler. run. rewrite Hf1, Hf2.
    repeat split; discriminate.
Qed.

(** ** The scenarios *)

Local Open Scope positive_scope.

Lemma detail_string_envelope_witness :
  (format_fault validation_fault tt ∅ =
     (Return (Some 1), {[ 1 := validation_response ]}) /\
   validation_body !! "detail" = Some (VStr required)) /\
  exists r',
    handle validation_fault tt ∅ =
      (Return (Some 1), <[1 := r']> {[ 1 := validation_response ]}) /\
    data r' = VDict {[ "error" := VStr required; "detail" := VDict validation_body ]} /\
    status_code r' = status_code validation_response.
Proof.
  assert (Hf : format_fault validation_fault tt ∅ =
               (Return (Some 1), {[ 1 := validation_response ]}))
    by reflexivity.
  assert (Hm : validation_body !! "detail" = Some (VStr required)) by reflexivity.
  split; [split; assumption|].
  exact (detail_string_envelope message format_fault opaque_repr
           validation_fault tt ∅ _ 1 validation_response validation_body
           required Hf eq_refl eq_refl Hm).
Defined.

Lemma missing_detail_envelope_witness :
  (format_fault field_errors_fault tt ∅ =
     (Return (Some 1), {[ 1 := field_errors_response ]}) /\
   field_errors_body !! "detail" = None) /\
  exists r',
    handle field_errors_fault tt ∅ =
      (Return (Some 1), <[1 := r']> {[ 1 := field_errors_response ]}) /\
    data r' = VDict {[ "error" := VStr (message field_errors_fault);
                       "detail" := VDict field_errors_body ]} /\
    status_code r' = status_code field_errors_response.
Proof.
  assert (Hf : format_fault field_errors_fault tt ∅ =
               (Return (Some 1), {[ 1 := field_errors_response ]}))
    by reflexivity.
  assert (Hm : field_errors_body !! "detail" = None) by reflexivity.
  split; [split; assumption|].
  exact (missing_detail_envelope message format_fault opaque_repr
           field_errors_fault tt ∅ _ 1 field_errors_response
           field_errors_body Hf eq_refl eq_refl Hm).
Defined.

Lemma null_detail_envelope_witness :
  (format_fault null_detail_fault tt ∅ =
     (Return (Some 1), {[ 1 := null_detail_response ]}) /\
   null_detail_body !! "detail" = Some VNone) /\
  exists r',
    handle null_detail_fault tt ∅ =
      (Return (Some 1), <[1 := r']> {[ 1 := null_detail_response ]}) /\
    data r' = VDict {[ "error" := VStr "None"; "detail" := VDict null_detail_body ]} /\
    status_code r' = status_code null_detail_response.
Proof.
  assert (Hf : format_fault null_detail_fault tt ∅ =
               (Return (Some 1), {[ 1 := null_detail_response ]}))
    by reflexivity.
  assert (Hm : null_detail_body !! "detail" = Some VNone) by reflexivity.
  split; [split; assumption|].
  exact (null_detail_envelope message format_fault opaque_repr
           null_detail_fault tt ∅ _ 1 null_detail_response
           null_detail_body Hf eq_refl eq_refl Hm).
Defined.

Lemma fault_irrelevant_with_detail_witness :
  (message validation_fault <> message invalid_input_fault /\
   format_fault validation_fault tt ∅ = format_fault invalid_input_fault tt ∅) /\
  handle validation_fault tt ∅ = handle invalid_input_fault tt ∅.
Proof.
  split; [split; [discriminate | reflexivity]|].
  apply (fault_irrelevant_with_detail message format_fault opaque_repr
           validation_fault invalid_input_fault tt ∅
           {[ 1 := validation_response ]} 1 validation_response);
    [reflexivity | reflexivity | reflexivity |].
  left. exists validation_body. split; [reflexivity|].
  exists (VStr required). reflexivity.
Defined.

Lemma status_and_headers_preserved_witness :
  handle unauthenticated_fault tt ∅ =
    (Return (Some 1), {[ 1 := unauthenticated_normalized ]}) /\
  exists h1 r r',
    format_fault unauthenticated_fault tt ∅ = (Return (Some 1), h1) /\
    h1 !! 1 = Some r /\
    ({[ 1 := unauthenticated_normalized ]} : heap) !! 1 = Some r' /\
    status_code r' = status_code r /\
    headers r' = headers r /\
    forall l', l' <> 1 ->
      ({[ 1 := unauthenticated_normalized ]} : heap) !! l' = h1 !! l'.
Proof.
  assert (Hh : handle unauthenticated_fault tt ∅ =
               (Return (Some 1), {[ 1 := unauthenticated_normalized ]}))
    by (vm_compute; reflexivity).
  split; [exact Hh|].
  exact (status_and_headers_preserved message format_fault opaque_repr
           unauthenticated_fault tt ∅ _ 1 Hh).
Defined.

Lemma non_mapping_body_raises_witness :
  (format_fault list_fault tt ∅ =
     (Return (Some 1), {[ 1 := list_response ]}) /\
   forall d, data list_response <> VDict d) /\
  handle list_fault tt ∅ =
    (Raise (AttributeError "list" "get"), {[ 1 := list_response ]}).
Proof.
  assert (Hf : format_fault list_fault tt ∅ =
               (Return (Some 1), {[ 1 := list_response ]}))
    by reflexivity.
  assert (Hd : forall d, data list_response <> VDict d) by discriminate.
  split; [split; assumption|].
  exact (non_mapping_body_raises message format_fault opaque_repr
           list_fault tt ∅ _ 1 list_response Hf eq_refl Hd).
Defined.

Lemma handler_stateless_witness :
  (format_fault validation_fault tt (busy_store list_response) =
     (Return (Some 4),
      <[4 := validation_response]> (busy_store list_response)) /\
   format_fault validation_fault tt (busy_store unauthenticated_response) =
     (Return (Some 4),
      <[4 := validation_response]> (busy_store unauthenticated_response))) /\
  exists o' h1' h2',
    handle validation_fault tt (busy_store list_response) = (o', h1') /\
    handle validation_fault tt (busy_store unauthenticated_response) = (o', h2') /\
    (forall l, Return (Some 4) = Return (Some l) -> h1' !! l = h2' !! l) /\
    (forall l', Return (Some 4) <> Return (Some l') ->
       h1' !! l' =
         (<[4 := validation_response]> (busy_store list_response) : heap) !! l' /\
       h2' !! l' =
         (<[4 := validation_response]> (busy_store unauthenticated_response) : heap)
           !! l').
Proof.
  assert (Hf1 : format_fault validation_fault tt (busy_store list_response) =
     (Return (Some 4),
      <[4 := validation_response]> (busy_store list_response)))
    by reflexivity.
  assert (Hf2 : format_fault validation_fault tt (busy_store unauthenticated_response) =
     (Return (Some 4),
      <[4 := validation_response]> (busy_store unauthenticated_response)))
    by reflexivity.
  split; [split; assumption|].
  apply (handler_stateless message opaque_repr format_fault format_fault
           validation_fault tt _ _ _ _ _ Hf1 Hf2).
  intros l [= <-]. reflexivity.
Defined.

(** ** Bodies without [get] *)


(** C6. The list body [["This field is required."]] with status 400: the
    handler does not wrap the list into an envelope, it raises
    [AttributeError], and the response keeps the list as its body. *)
Theorem list_body_raises :
  fst (handle list_fault tt ∅) = Raise (AttributeError "list" "get") /\
  data <$> (snd (handle list_fault tt ∅) !! 1) = Some (VList [VStr required]).
Proof. split; vm_compute; reflexivity. Qed.

(** C4. A fault the formatter has no response for comes back as [None]
    (in general: [handler_no_response]).  The converse fails: for the list
    body the formatter returns a response, and the handler returns neither a
    rewritten response nor [None], it raises [AttributeError]. *)
Theorem formatted_response_not_returned :
  fst (handle runtime_fault tt ∅) = Return None /\
  fst (format_fault list_fault tt ∅) = Return (Some 1) /\
  fst (handle list_fault tt ∅) = Raise (AttributeError "list" "get").
Proof. repeat split; vm_compute; reflexivity. Qed.

Local Close Scope positive_scope.

(** ** The handler, from its result back to the formatter *)

Section HandlerInversion.

Context {Exc Context : Type}.
Variable str_exc : Exc -> string.
Variable exception_handler : Exc -> Context -> M (option loc).
Variable py_repr : value -> string.

(** The whole of the handler, by the result of the formatter. *)
Lemma handler_cases exc ctx h :
  custom_exception_handler str_exc exception_handler py_repr exc ctx h =
    match exception_handler exc ctx h with
    | (Return (Some l), h1) =>
        match h1 !! l with
        | Some r =>
            match data r with
            | VDict d =>
                (Return (Some l),
                 <[l := with_data r
                          (VDict {[ "error" :=
                                      VStr (py_str py_repr
                                              (default (VStr (str_exc exc))
                                                       (d !! "detail")));
                                    "detail" := VDict d ]})]> h1)
            | v => (Raise (AttributeError (type_name v) "get"), h1)
            end
        | None => (Dangling, h1)
        end
    | (Return None, h1) => (Return None, h1)
    | (Raise e, h1) => (Raise e, h1)
    | (Dangling, h1) => (Dangling, h1)
    end.
Proof.
  destruct (exception_handler exc ctx h) as [[[l|]|e|] h1] eqn:Hf.
  - destruct (h1 !! l) as [r|] eqn:Hl.
    + destruct (data r) as [| | | | |d] eqn:Hd;
        try (rewrite (handler_response _ _ _ _ _ _ _ _ _ Hf Hl), Hd; reflexivity).
      apply (handler_mapping _ _ _ _ _ _ _ _ _ _ Hf Hl Hd).
    + unfold custom_exception_handler. run. rewrite Hf, Hl. reflexivity.
  - apply handler_no_response, Hf.
  - apply handler_formatter_raises, Hf.
  - unfold custom_exception_handler. run. rewrite Hf. reflexivity.
Qed.

(** X1. The handler returns [None] exactly when the formatter does, and then the
    store is the one the formatter left: a response of the formatter is never
    turned into [None]. *)
Theorem none_iff_no_response exc ctx h h' :
  custom_exception_handler str_exc exception_handler py_repr exc ctx h =
    (Return None, h') <->
  exception_handler exc ctx h = (Return None, h').
Proof.
  rewrite handler_cases.
  destruct (exception_handler exc ctx h) as [[[l|]|e|] h1]; try (split; congruence).
  destruct (h1 !! l) as [r|]; [|split; congruence].
  destruct (data r); split; congruence.
Qed.

(** X3. A response out of the handler always has a body of exactly the two keys
    [error] and [detail], where [error] is a string and [detail] is the body
    the formatter built, which was a mapping: [detail] is never [None]. *)
Theorem returned_envelope_inv exc ctx h h' l :
  custom_exception_handler str_exc exception_handler py_repr exc ctx h =
    (Return (Some l), h') ->
  exists h1 r r' d msg,
    exception_handler exc ctx h = (Return (Some l), h1) /\
    h1 !! l = Some r /\
    data r = VDict d /\
    h' !! l = Some r' /\
    data r' = VDict {[ "error" := VStr msg; "detail" := VDict d ]} /\
    msg = py_str py_repr (default (VStr (str_exc exc)) (d !! "detail")).
Proof.
  rewrite handler_cases.
  destruct (exception_handler exc ctx h) as [[[l0|]|e0|] h1]; try discriminate.
  destruct (h1 !! l0) as [r|] eqn:Hl; [|discriminate].
  destruct (data r) as [| | | | |d] eqn:Hd; try discriminate.
  intros [= <- <-]. exists h1, r. eexists. exists d. eexists.
  split; [reflexivity|]. split; [assumption|]. split; [assumption|].
  split; [apply lookup_insert_eq|]. split; reflexivity.
Qed.

(** X5. Whatever value the mapping holds under [detail], be it empty or false,
    its string form is the [error]; [str(exc)] is not consulted. *)
Theorem present_detail_envelope exc ctx h h1 l r d v :
  exception_handler exc ctx h = (Return (Some l), h1) ->
  h1 !! l = Some r ->
  data r = VDict d ->
  d !! "detail" = Some v ->
  custom_exception_handler str_exc exception_handler py_repr exc ctx h =
    (Return (Some l),
     <[l := with_data r
              (VDict {[ "error" := VStr (py_str py_repr v); "detail" := VDict d ]})]> h1).
Proof.
  intros Hf Hl Hd Hv. rewrite handler_cases, Hf, Hl, Hd, Hv. reflexivity.
Qed.

End HandlerInversion.

(** * The settings modules *)

(** ** The lists of base.py *)

(** No application is installed twice, the three groups come in the order
    Django, third party, local, and the application [core], which holds the
    exception handler named in [REST_FRAMEWORK], is installed. *)
Lemma INSTALLED_APPS_distinct :
  NoDup INSTALLED_APPS /\
  length INSTALLED_APPS =
    (length DJANGO_APPS + length THIRD_PARTY_APPS + length LOCAL_APPS)%nat /\
  "core" ∈ INSTALLED_APPS /\
  "rest_framework" ∈ INSTALLED_APPS /\
  "corsheaders" ∈ INSTALLED_APPS.
Proof.
  split; [apply (bool_decide_unpack _); vm_compute; reflexivity|].
  split; [reflexivity|].
  repeat split; apply (bool_decide_unpack _); vm_compute; reflexivity.
Qed.

(** X14. The CORS middleware stands before [CommonMiddleware], as the comment in
    the list asks, and the session middleware before the authentication
    middleware; no middleware is listed twice, so the positions are the only
    ones. *)
Theorem MIDDLEWARE_order :
  NoDup MIDDLEWARE /\
  exists i j k n,
    MIDDLEWARE !! i = Some "corsheaders.middleware.CorsMiddleware" /\
    MIDDLEWARE !! j = Some "django.middleware.common.CommonMiddleware" /\
    MIDDLEWARE !! k = Some "django.contrib.sessions.middleware.SessionMiddleware" /\
    MIDDLEWARE !! n = Some "django.contrib.auth.middleware.AuthenticationMiddleware" /\
    (i < j)%nat /\ (k < n)%nat.
Proof.
  split; [apply (bool_decide_unpack _); vm_compute; reflexivity|].
  exists 2%nat, 3%nat, 4%nat, 6%nat. repeat split; lia.
Qed.

(** ** Running base.py *)

Section ExecSteps.

Context {E : Type}.

(** one assignment, then the rest of the module *)
Lemma exec_assign {A} name v (k : unit -> Exec E A) w :
  (assign E name v ≫= k) w =
  k tt {| os_environ := os_environ w; globals := <[name := v]> (globals w) |}.
Proof. reflexivity. Qed.

(** one read, then the rest of the module *)
Lemma exec_read {A} f (k : setting -> Exec E A) w :
  (read E f ≫= k) w =
  match f (os_environ w) with
  | inr v => k v w
  | inl e => (inl e, w)
  end.
Proof.
  unfold mbind, Exec_bind, read. destruct (f (os_environ w)); reflexivity.
Qed.

(** the last assignment of a module *)
Lemma exec_assign_last name v w :
  assign E name v w =
  (inr tt, {| os_environ := os_environ w; globals := <[name := v]> (globals w) |}).
Proof. reflexivity. Qed.

End ExecSteps.

Ltac step :=
  first [ rewrite exec_assign | rewrite exec_read | rewrite exec_assign_last ];
  cbv beta; cbn [os_environ globals fst snd].

Ltac branch :=
  match goal with
  | |- context [match ?r with inl _ => _ | inr _ => _ end] => destruct r eqn:?
  end;
  cbv beta; cbn [os_environ globals fst snd].

(** runs a settings module to each of its ends: one goal for every read
    that may raise, and one for the module that loads *)
Ltac run_module := repeat first [ step | branch ].

Section SettingsFacts.

Context {E : Type}.
Variable env_str : gmap string string -> string -> E + setting.
Variable env_list : gmap string string -> string -> setting -> E + setting.
Variable env_db : gmap string string -> string -> E + setting.
Variable module_file : list string.

(** X7. base.py reads five variables, in this order; it loads when all five
    reads return, and otherwise raises what the first failing read raises.
    Only [DJANGO_ALLOWED_HOSTS] is read with a default. *)
Theorem base_outcome w :
  fst (base env_str env_list env_db module_file w) =
    match env_str (os_environ w) "DJANGO_SECRET_KEY" with
    | inl e => inl e
    | inr _ =>
        match env_list (os_environ w) "DJANGO_ALLOWED_HOSTS" (SList []) with
        | inl e => inl e
        | inr _ =>
            match env_db (os_environ w) "DATABASE_URL" with
            | inl e => inl e
            | inr _ =>
                match env_str (os_environ w) "STRIPE_SECRET_KEY" with
                | inl e => inl e
                | inr _ =>
                    match env_str (os_environ w) "STRIPE_WEBHOOK_SECRET" with
                    | inl e => inl e
                    | inr _ => inr tt
                    end
                end
            end
        end
    end.
Proof. unfold base. run_module; reflexivity. Qed.

(** base.py never writes [os.environ], whether it loads or raises. *)
Lemma base_keeps_environ w :
  os_environ (snd (base env_str env_list env_db module_file w)) = os_environ w.
Proof. unfold base. run_module; reflexivity. Qed.

(** X8. base.py binds no name [DEBUG]: the [DEBUG] scheme given to [Env] is never
    read, so under base.py alone the setting is left to the framework's
    default, whatever the environment holds. *)
Theorem base_leaves_DEBUG_unset w :
  globals w !! "DEBUG" = None ->
  globals (snd (base env_str env_list env_db module_file w)) !! "DEBUG" = None.
Proof.
  intros Hw. unfold base. run_module; rewrite !lookup_insert_ne by done; exact Hw.
Qed.

(** Every name base.py binds is public, so [import *] takes them all. *)
Lemma base_public w :
  map_Forall (fun k _ => Is_true (public k)) (globals w) ->
  map_Forall (fun k _ => Is_true (public k))
    (globals (snd (base env_str env_list env_db module_file w))).
Proof.
  intros Hw. unfold base.
  run_module; repeat (apply map_Forall_insert_2; [exact I|]); exact Hw.
Qed.

(** X10. The project root: with base.py at [root/config/settings/base.py], a
    loaded base.py binds [BASE_DIR] to [root] and [STATIC_ROOT] to
    [root/staticfiles]. *)
Theorem BASE_DIR_is_project_root (root : list string) w :
  module_file = (root ++ ["config"; "settings"; "base.py"])%list ->
  fst (base env_str env_list env_db module_file w) = inr tt ->
  globals (snd (base env_str env_list env_db module_file w)) !! "BASE_DIR" =
    Some (SPath root) /\
  globals (snd (base env_str env_list env_db module_file w)) !! "STATIC_ROOT" =
    Some (SPath (root ++ ["staticfiles"])%list).
Proof.
  intros Hfile.
  assert (Hroot : BASE_DIR module_file = root).
  { unfold BASE_DIR, parent. rewrite Hfile.
    change (root ++ ["config"; "settings"; "base.py"])%list
      with (root ++ ["config"] ++ ["settings"] ++ ["base.py"])%list.
    rewrite !app_assoc. rewrite !removelast_last. reflexivity. }
  unfold base. run_module; try discriminate. intros _.
  rewrite Hroot. split.
  - rewrite !lookup_insert_ne by done. apply lookup_insert_eq.
  - rewrite !lookup_insert_ne by done. apply lookup_insert_eq.
Qed.

End SettingsFacts.

(** X9. The settings of base.py are a function of what its five reads return:
    two runs, in any two environments and with any two sets of readers, in
    which the five reads return alike end alike and bind the same globals.
    No other variable of the environment, [DEBUG] included, has a say. *)
Theorem base_depends_on_reads_only {E : Type}
    (env_str1 env_str2 : gmap string string -> string -> E + setting)
    (env_list1 env_list2 : gmap string string -> string -> setting -> E + setting)
    (env_db1 env_db2 : gmap string string -> string -> E + setting)
    (module_file : list string) (w1 w2 : world) :
  globals w1 = globals w2 ->
  env_str1 (os_environ w1) "DJANGO_SECRET_KEY" =
    env_str2 (os_environ w2) "DJANGO_SECRET_KEY" ->
  env_list1 (os_environ w1) "DJANGO_ALLOWED_HOSTS" (SList []) =
    env_list2 (os_environ w2) "DJANGO_ALLOWED_HOSTS" (SList []) ->
  env_db1 (os_environ w1) "DATABASE_URL" = env_db2 (os_environ w2) "DATABASE_URL" ->
  env_str1 (os_environ w1) "STRIPE_SECRET_KEY" =
    env_str2 (os_environ w2) "STRIPE_SECRET_KEY" ->
  env_str1 (os_environ w1) "STRIPE_WEBHOOK_SECRET" =
    env_str2 (os_environ w2) "STRIPE_WEBHOOK_SECRET" ->
  fst (base env_str1 env_list1 env_db1 module_file w1) =
    fst (base env_str2 env_list2 env_db2 module_file w2) /\
  globals (snd (base env_str1 env_list1 env_db1 module_file w1)) =
    globals (snd (base env_str2 env_list2 env_db2 module_file w2)).
Proof.
  intros Hg H1 H2 H3 H4 H5. unfold base.
  repeat step. rewrite H1. branch; [split; congruence|].
  repeat step. rewrite H2. branch; [split; congruence|].
  repeat step. rewrite H3. branch; [split; congruence|].
  repeat step. rewrite H4. branch; [split; congruence|].
  repeat step. rewrite H5. branch; [split; congruence|].
  repeat step. split; congruence.
Qed.

(** ** Running local.py *)

Section LocalFacts.

Context {E : Type}.
Variable env_str : gmap string string -> string -> E + setting.
Variable env_list : gmap string string -> string -> setting -> E + setting.
Variable env_db : gmap string string -> string -> E + setting.
Variable module_file : list string.

(** local.py, by the outcome of base.py in a module of its own. *)
Lemma local_cases read_env w :
  local env_str env_list env_db read_env module_file w =
    match base env_str env_list env_db module_file
            {| os_environ := os_environ w; globals := ∅ |} with
    | (inl e, _) => (inl e, w)
    | (inr _, w') =>
        let g := <["DEBUG" := SBool true]> (globals w' ∪ globals w) in
        match read_env (joinpath (BASE_DIR module_file) ".env") (os_environ w) with
        | inl e => (inl e, {| os_environ := os_environ w; globals := g |})
        | inr env' =>
            (inr tt,
             {| os_environ := env';
                globals :=
                  <["CORS_ALLOW_CREDENTIALS" := SBool true]>
                    (<["CORS_ALLOWED_ORIGINS" := strs ["http://localhost:5173"]]>
                       (<["ALLOWED_HOSTS" := strs ["localhost"; "127.0.0.1"]]> g)) |})
        end
    end.
Proof.
  pose proof (base_keeps_environ env_str env_list env_db module_file
                {| os_environ := os_environ w; globals := ∅ |}) as Henv.
  pose proof (base_public env_str env_list env_db module_file
                {| os_environ := os_environ w; globals := ∅ |}
                (map_Forall_empty _)) as Hpub.
  unfold local.
  unfold mbind at 1, Exec_bind at 1, import_star.
  destruct (base env_str env_list env_db module_file _) as [[e|[]] w'].
  - cbn [snd os_environ] in Henv. rewrite Henv. destruct w; reflexivity.
  - cbn [snd os_environ globals] in Henv, Hpub. rewrite Henv.
    rewrite (map_filter_id _ (globals w')) by (intros i x Hi; exact (Hpub i x Hi)).
    step. unfold mbind at 1, Exec_bind at 1, call_read_env. cbn [os_environ globals].
    destruct (read_env _ _); [reflexivity|].
    do 3 step. reflexivity.
Qed.

(** X11. When base.py raises, local.py raises the same, and before it comes to
    [read_env]: [os.environ] and the globals are untouched.  A variable that
    base.py needs cannot come from the [.env] file, whatever the file holds. *)
Theorem local_fails_with_base read_env w e :
  fst (base env_str env_list env_db module_file
         {| os_environ := os_environ w; globals := ∅ |}) = inl e ->
  local env_str env_list env_db read_env module_file w = (inl e, w).
Proof.
  intros Hb. rewrite local_cases.
  destruct (base env_str env_list env_db module_file _) as [[e'|[]] w'];
    cbn [fst] in Hb; congruence.
Qed.

(** X12. A loaded local.py has [DEBUG] on and its own [ALLOWED_HOSTS] and CORS
    settings, whatever [DJANGO_ALLOWED_HOSTS] was read as; every other name is
    bound as base.py bound it. *)
Theorem local_overrides read_env w :
  globals w = ∅ ->
  fst (local env_str env_list env_db read_env module_file w) = inr tt ->
  let g := globals (snd (local env_str env_list env_db read_env module_file w)) in
  g !! "DEBUG" = Some (SBool true) /\
  g !! "ALLOWED_HOSTS" = Some (strs ["localhost"; "127.0.0.1"]) /\
  g !! "CORS_ALLOWED_ORIGINS" = Some (strs ["http://localhost:5173"]) /\
  g !! "CORS_ALLOW_CREDENTIALS" = Some (SBool true) /\
  forall name,
    name ∉ ["DEBUG"; "ALLOWED_HOSTS"; "CORS_ALLOWED_ORIGINS"; "CORS_ALLOW_CREDENTIALS"] ->
    g !! name =
      globals (snd (base env_str env_list env_db module_file
                      {| os_environ := os_environ w; globals := ∅ |})) !! name.
Proof.
  intros Hw. rewrite local_cases, Hw.
  destruct (base env_str env_list env_db module_file _) as [[e|[]] w'];
    [discriminate|]. cbv zeta.
  destruct (read_env _ _) as [e|env']; [discriminate|]. intros _.
  cbn [snd globals]. rewrite (right_id_L ∅ (∪)).
  split; [rewrite !lookup_insert_ne by done; apply lookup_insert_eq|].
  split; [rewrite !lookup_insert_ne by done; apply lookup_insert_eq|].
  split; [rewrite !lookup_insert_ne by done; apply lookup_insert_eq|].
  split; [apply lookup_insert_eq|].
  intros name Hname.
  rewrite !lookup_insert_ne by (intros <-; apply Hname; set_solver).
  reflexivity.
Qed.

(** X13. The settings of local.py do not depend on the [.env] file: two runs with
    any two [read_env] that both load bind the same globals.  The file is
    read after base.py has made its reads, and nothing is read after it. *)
Theorem local_settings_ignore_dotenv read_env1 read_env2 w :
  fst (local env_str env_list env_db read_env1 module_file w) = inr tt ->
  fst (local env_str env_list env_db read_env2 module_file w) = inr tt ->
  globals (snd (local env_str env_list env_db read_env1 module_file w)) =
  globals (snd (local env_str env_list env_db read_env2 module_file w)).
Proof.
  rewrite !local_cases.
  destruct (base env_str env_list env_db module_file _) as [[e|[]] w'];
    [discriminate|]. cbv zeta.
  destruct (read_env1 _ _); [discriminate|].
  destruct (read_env2 _ _); [discriminate|]. reflexivity.
Qed.

End LocalFacts.

(** ** Instances *)

Lemma returned_envelope_inv_witness :
  handle unauthenticated_fault tt ∅ =
    (Return (Some 1%positive), {[ 1%positive := unauthenticated_normalized ]}) /\
  exists h1 r r' d msg,
    format_fault unauthenticated_fault tt ∅ = (Return (Some 1%positive), h1) /\
    h1 !! 1%positive = Some r /\
    data r = VDict d /\
    ({[ 1%positive := unauthenticated_normalized ]} : heap) !! 1%positive = Some r' /\
    data r' = VDict {[ "error" := VStr msg; "detail" := VDict d ]} /\
    msg = py_str opaque_repr
            (default (VStr (message unauthenticated_fault)) (d !! "detail")).
Proof.
  assert (Hh : handle unauthenticated_fault tt ∅ =
               (Return (Some 1%positive), {[ 1%positive := unauthenticated_normalized ]}))
    by (vm_compute; reflexivity).
  split; [exact Hh|].
  exact (returned_envelope_inv message format_fault opaque_repr
           unauthenticated_fault tt ∅ _ 1%positive Hh).
Defined.

Lemma present_detail_envelope_witness :
  (format_fault false_detail_fault tt ∅ =
     (Return (Some 1%positive), {[ 1%positive := false_detail_response ]}) /\
   false_detail_body !! "detail" = Some (VBool false)) /\
  handle false_detail_fault tt ∅ =
    (Return (Some 1%positive),
     <[1%positive := with_data false_detail_response
                       (VDict {[ "error" := VStr "False";
                                 "detail" := VDict false_detail_body ]})]>
       {[ 1%positive := false_detail_response ]}).
Proof.
  assert (Hf : format_fault false_detail_fault tt ∅ =
               (Return (Some 1%positive), {[ 1%positive := false_detail_response ]}))
    by reflexivity.
  assert (Hv : false_detail_body !! "detail" = Some (VBool false)) by reflexivity.
  split; [split; assumption|].
  exact (present_detail_envelope message format_fault opaque_repr
           false_detail_fault tt ∅ _ 1%positive false_detail_response
           false_detail_body (VBool false) Hf eq_refl eq_refl Hv).
Defined.

Lemma base_leaves_DEBUG_unset_witness :
  (deployed_environ !! "DEBUG" = Some "True" /\
   globals (fresh_module deployed_environ) !! "DEBUG" = None) /\
  globals (snd (base getenv getenv_list getenv base_py (fresh_module deployed_environ)))
    !! "DEBUG" = None.
Proof.
  assert (Hw : globals (fresh_module deployed_environ) !! "DEBUG" = None) by reflexivity.
  split; [split; [reflexivity | exact Hw]|].
  exact (base_leaves_DEBUG_unset getenv getenv_list getenv base_py
           (fresh_module deployed_environ) Hw).
Defined.

Lemma BASE_DIR_is_project_root_witness :
  fst (base getenv getenv_list getenv base_py (fresh_module deployed_environ)) = inr tt /\
  globals (snd (base getenv getenv_list getenv base_py (fresh_module deployed_environ)))
    !! "BASE_DIR" = Some (SPath ["srv"; "app"]) /\
  globals (snd (base getenv getenv_list getenv base_py (fresh_module deployed_environ)))
    !! "STATIC_ROOT" = Some (SPath ["srv"; "app"; "staticfiles"]).
Proof.
  assert (Hb : fst (base getenv getenv_list getenv base_py
                      (fresh_module deployed_environ)) = inr tt)
    by (vm_compute; reflexivity).
  split; [exact Hb|].
  exact (BASE_DIR_is_project_root getenv getenv_list getenv base_py ["srv"; "app"]
           (fresh_module deployed_environ) eq_refl Hb).
Defined.

Lemma base_depends_on_reads_only_witness :
  deployed_environ <> <["DEBUG" := "False"]> deployed_environ /\
  fst (base getenv getenv_list getenv base_py (fresh_module deployed_environ)) =
    fst (base getenv getenv_list getenv base_py
           (fresh_module (<["DEBUG" := "False"]> deployed_environ))) /\
  globals (snd (base getenv getenv_list getenv base_py (fresh_module deployed_environ))) =
    globals (snd (base getenv getenv_list getenv base_py
                    (fresh_module (<["DEBUG" := "False"]> deployed_environ)))).
Proof.
  split.
  - intros Heq. apply (f_equal (fun m => m !! "DEBUG")) in Heq.
    vm_compute in Heq. discriminate.
  - apply (base_depends_on_reads_only getenv getenv getenv_list getenv_list
             getenv getenv base_py (fresh_module deployed_environ)
             (fresh_module (<["DEBUG" := "False"]> deployed_environ)));
      vm_compute; reflexivity.
Defined.

Lemma local_fails_with_base_witness :
  fst (base getenv getenv_list getenv base_py (fresh_module ∅)) =
    inl "DJANGO_SECRET_KEY" /\
  local getenv getenv_list getenv (dotenv dotenv_file) base_py (fresh_module ∅) =
    (inl "DJANGO_SECRET_KEY", fresh_module ∅).
Proof.
  assert (Hb : fst (base getenv getenv_list getenv base_py (fresh_module ∅)) =
               inl "DJANGO_SECRET_KEY")
    by (vm_compute; reflexivity).
  split; [exact Hb|].
  exact (local_fails_with_base getenv getenv_list getenv base_py
           (dotenv dotenv_file) (fresh_module ∅) "DJANGO_SECRET_KEY" Hb).
Defined.

Lemma local_overrides_witness :
  (getenv_list deployed_environ "DJANGO_ALLOWED_HOSTS" (SList []) =
     inr (strs ["api.example.com"]) /\
   fst (local getenv getenv_list getenv (dotenv dotenv_file) base_py
          (fresh_module deployed_environ)) = inr tt) /\
  let g := globals (snd (local getenv getenv_list getenv (dotenv dotenv_file) base_py
                           (fresh_module deployed_environ))) in
  g !! "DEBUG" = Some (SBool true) /\
  g !! "ALLOWED_HOSTS" = Some (strs ["localhost"; "127.0.0.1"]) /\
  g !! "CORS_ALLOWED_ORIGINS" = Some (strs ["http://localhost:5173"]) /\
  g !! "CORS_ALLOW_CREDENTIALS" = Some (SBool true) /\
  forall name,
    name ∉ ["DEBUG"; "ALLOWED_HOSTS"; "CORS_ALLOWED_ORIGINS"; "CORS_ALLOW_CREDENTIALS"] ->
    g !! name =
      globals (snd (base getenv getenv_list getenv base_py
                      {| os_environ := os_environ (fresh_module deployed_environ);
                         globals := ∅ |})) !! name.
Proof.
  assert (Hl : fst (local getenv getenv_list getenv (dotenv dotenv_file) base_py
                      (fresh_module deployed_environ)) = inr tt)
    by (vm_compute; reflexivity).
  split; [split; [reflexivity | exact Hl]|].
  exact (local_overrides getenv getenv_list getenv base_py (dotenv dotenv_file)
           (fresh_module deployed_environ) eq_refl Hl).
Defined.

Lemma local_settings_ignore_dotenv_witness :
  dotenv dotenv_file [] ∅ <> dotenv ∅ [] ∅ /\
  globals (snd (local getenv getenv_list getenv (dotenv dotenv_file) base_py
                  (fresh_module deployed_environ))) =
  globals (snd (local getenv getenv_list getenv (dotenv ∅) base_py
                  (fresh_module deployed_environ))).
Proof.
  split.
  - intros Heq. apply (f_equal (fun r => match r with
                                          | inr m => m !! "DATABASE_URL"
                                          | inl _ => None
                                          end)) in Heq.
    vm_compute in Heq. discriminate.
  - apply (local_settings_ignore_dotenv getenv getenv_list getenv base_py
             (dotenv dotenv_file) (dotenv ∅) (fresh_module deployed_environ));
      vm_compute; reflexivity.
Defined.

(** * A detail that is a plain string

    The handler calls [get] on the body before it asks whether the body is a
    string, so it is written for a formatter whose body is a mapping.  The
    framework's formatter is one: a detail that is neither a list nor a
    mapping reaches the handler as [{"detail": S}], not as the bare [S]. *)

Section StringDetail.

Context {Exc Context : Type}.
Variable str_exc : Exc -> string.
Variable exception_handler : Exc -> Context -> M (option loc).
Variable py_repr : value -> string.


End StringDetail.


